(** * coffee_shop20: the frontend environment declaration

    The repository fragment is one TypeScript module,
    [src/frontend/src/environments/environment.ts], whose whole content is

    <<
    export const environment = {
      production: false,
      apiServerUrl: 'http://127.0.0.1:5000',
      auth0: {
        url: 'udacity2020.eu',
        audience: 'coffee_shop_api',
        clientId: 'XzfZoHMGLBsS6YoHQq9MJYu56QwhA49o',
        callbackURL: 'http://127.0.0.1:8100/callback',
      }
    };
    >>

    The development has four parts:
    - [Config]: the typed view, records shaped like the type TypeScript
      infers for the constant, and the constant itself;
    - [Js]: the untyped view, a small fragment of the host language
      (values, expressions, statements) with its evaluator, and the module
      as a syntax tree;
    - [Url]: the reading of a string as a network location;
    - [Spec]: what the specification says of the object, in its words.
    The two views of the constant are proved to agree before anything is
    stated about either. *)

From Stdlib Require Import String Ascii List Bool Arith Lia.
Import ListNotations.
Open Scope string_scope.
Open Scope list_scope.

Set Warnings "-register-all".

(** ** The typed view *)

Module Config.

(** The object under the [auth0] key. *)
Record Auth0 : Type := mkAuth0 {
  url : string;
  audience : string;
  clientId : string;
  callbackURL : string
}.

(** The exported object. *)
Record Environment : Type := mkEnvironment {
  production : bool;
  apiServerUrl : string;
  auth0 : Auth0
}.

Definition environment : Environment :=
  {| production := false;
     apiServerUrl := "http://127.0.0.1:5000";
     auth0 :=
       {| url := "udacity2020.eu";
          audience := "coffee_shop_api";
          clientId := "XzfZoHMGLBsS6YoHQq9MJYu56QwhA49o";
          callbackURL := "http://127.0.0.1:8100/callback" |} |}.

(** The string-typed fields, in declaration order. *)
Definition string_fields (e : Environment) : list string :=
  [ apiServerUrl e;
    url (auth0 e); audience (auth0 e); clientId (auth0 e);
    callbackURL (auth0 e) ].

End Config.

(** ** The untyped view: a fragment of the host language *)

Module Js.

(** Runtime values.  An object keeps its properties in insertion order,
    each key once. *)
Inductive value : Type :=
| VUndefined
| VBool (b : bool)
| VStr (s : string)
| VObj (props : list (string * value)).

Definition scalar (v : value) : bool :=
  match v with
  | VBool _ | VStr _ => true
  | VUndefined | VObj _ => false
  end.

Definition composite (v : value) : bool :=
  match v with
  | VObj _ => true
  | _ => false
  end.

(** Own properties of a value; a primitive has none. *)
Definition props_of (v : value) : list (string * value) :=
  match v with
  | VObj ps => ps
  | _ => []
  end.

Definition keys_of (v : value) : list string := map fst (props_of v).

Fixpoint get (k : string) (ps : list (string * value)) : option value :=
  match ps with
  | [] => None
  | (k', v) :: ps' => if String.eqb k k' then Some v else get k ps'
  end.

(** Defining a property: an existing key keeps its position and takes
    the new value, a new key goes last. *)
Fixpoint set (k : string) (v : value) (ps : list (string * value))
  : list (string * value) :=
  match ps with
  | [] => [(k, v)]
  | (k', v') :: ps' =>
      if String.eqb k k' then (k, v) :: ps' else (k', v') :: set k v ps'
  end.

(** A flat object: every property holds a scalar. *)
Definition flat (v : value) : bool :=
  composite v && forallb (fun kv => scalar (snd kv)) (props_of v).

(** The leaves of a value, each with the path of keys leading to it. *)
Fixpoint leaves (v : value) : list (list string * value) :=
  match v with
  | VObj ps =>
      (fix go (ps : list (string * value)) : list (list string * value) :=
         match ps with
         | [] => []
         | (k, w) :: ps' =>
             map (fun pl => (k :: fst pl, snd pl)) (leaves w) ++ go ps'
         end) ps
  | _ => [([], v)]
  end.

Definition leaf_paths (v : value) : list (list string) :=
  map fst (leaves v).

(** Every key occurring anywhere in a value, outermost first. *)
Fixpoint all_keys (v : value) : list string :=
  match v with
  | VObj ps =>
      (fix go (ps : list (string * value)) : list string :=
         match ps with
         | [] => []
         | (k, w) :: ps' => k :: all_keys w ++ go ps'
         end) ps
  | _ => []
  end.

(** Levels of object nesting: 0 for a primitive, 1 for a flat object. *)
Fixpoint depth (v : value) : nat :=
  match v with
  | VObj ps =>
      S ((fix go (ps : list (string * value)) : nat :=
            match ps with
            | [] => 0
            | (_, w) :: ps' => Nat.max (depth w) (go ps')
            end) ps)
  | _ => 0
  end.

(** Expressions: the three literal forms the module uses, and the forms
    that read the context or choose between alternatives. *)
Inductive expr : Type :=
| EBool (b : bool)
| EStr (s : string)
| EObject (props : list (string * expr))
| EIdent (x : string)
| ENot (e : expr)
| ECond (c t f : expr).

(** Statements.  A [const] may carry [export]; [try] is written with
    the optional catch binding left out. *)
Inductive stmt : Type :=
| SConst (exported : bool) (x : string) (e : expr)
| SIf (c : expr) (th el : list stmt)
| SThrow (e : expr)
| STry (body handler : list stmt).

Definition module := list stmt.

Inductive error : Type :=
| ReferenceError (x : string)
| Thrown (v : value).

Inductive result (A : Type) : Type :=
| Ok (a : A)
| Err (e : error).
Arguments Ok {A} a.
Arguments Err {A} e.

Definition bind {A B : Type} (r : result A) (k : A -> result B)
  : result B :=
  match r with
  | Ok a => k a
  | Err e => Err e
  end.

Notation "x <- r ;; k" := (bind r (fun x => k))
  (at level 61, r at next level, right associativity).

(** The bindings visible to the module, innermost first. *)
Definition scope := list (string * value).

Definition truthy (v : value) : bool :=
  match v with
  | VUndefined => false
  | VBool b => b
  | VStr s => negb (String.eqb s "")
  | VObj _ => true
  end.

Fixpoint eval (sc : scope) (e : expr) : result value :=
  match e with
  | EBool b => Ok (VBool b)
  | EStr s => Ok (VStr s)
  | EObject ps =>
      (fix go (ps : list (string * expr)) (acc : list (string * value))
         : result value :=
         match ps with
         | [] => Ok (VObj acc)
         | (k, e') :: ps' => v <- eval sc e' ;; go ps' (set k v acc)
         end) ps []
  | EIdent x =>
      match get x sc with
      | Some v => Ok v
      | None => Err (ReferenceError x)
      end
  | ENot e' => v <- eval sc e' ;; Ok (VBool (negb (truthy v)))
  | ECond c t f => v <- eval sc c ;; if truthy v then eval sc t else eval sc f
  end.

(** The property list of an object literal, evaluated left to right. *)
Fixpoint eval_props (sc : scope) (ps : list (string * expr))
  (acc : list (string * value)) : result value :=
  match ps with
  | [] => Ok (VObj acc)
  | (k, e') :: ps' => v <- eval sc e' ;; eval_props sc ps' (set k v acc)
  end.

(** Running a statement gives the scope after it and what it exports.
    Declarations made inside a block end with the block, and only a
    top-level declaration can export. *)
Fixpoint exec (sc : scope) (s : stmt)
  : result (scope * list (string * value)) :=
  match s with
  | SConst exported x e =>
      v <- eval sc e ;;
      Ok ((x, v) :: sc, if exported then [(x, v)] else [])
  | SIf c th el =>
      let block :=
        fix block (sc' : scope) (ss : list stmt) : result unit :=
          match ss with
          | [] => Ok tt
          | s' :: ss' => r <- exec sc' s' ;; block (fst r) ss'
          end in
      v <- eval sc c ;;
      _ <- (if truthy v then block sc th else block sc el) ;;
      Ok (sc, [])
  | SThrow e => v <- eval sc e ;; Err (Thrown v)
  | STry body handler =>
      let block :=
        fix block (sc' : scope) (ss : list stmt) : result unit :=
          match ss with
          | [] => Ok tt
          | s' :: ss' => r <- exec sc' s' ;; block (fst r) ss'
          end in
      match block sc body with
      | Ok _ => Ok (sc, [])
      | Err _ => _ <- block sc handler ;; Ok (sc, [])
      end
  end.

(** A nested block. *)
Fixpoint exec_block (sc : scope) (ss : list stmt) : result unit :=
  match ss with
  | [] => Ok tt
  | s :: ss' => r <- exec sc s ;; exec_block (fst r) ss'
  end.

(** The top level: statements in order, exports collected. *)
Fixpoint exec_top (sc : scope) (ss : list stmt)
  : result (list (string * value)) :=
  match ss with
  | [] => Ok []
  | s :: ss' =>
      r <- exec sc s ;;
      exs <- exec_top (fst r) ss' ;;
      Ok (snd r ++ exs)
  end.

(** Evaluating a module in a context: its exports, or the error that
    stopped it. *)
Definition run (ctx : scope) (m : module)
  : result (list (string * value)) :=
  exec_top ctx m.

Definition succeeded {A : Type} (r : result A) : bool :=
  match r with
  | Ok _ => true
  | Err _ => false
  end.

(** *** Syntactic classes *)

(** A literal: no identifier, no operator, no choice. *)
Fixpoint literal (e : expr) : bool :=
  match e with
  | EBool _ | EStr _ => true
  | EObject ps =>
      (fix go (ps : list (string * expr)) : bool :=
         match ps with
         | [] => true
         | (_, e') :: ps' => literal e' && go ps'
         end) ps
  | EIdent _ | ENot _ | ECond _ _ _ => false
  end.

Fixpoint literal_props (ps : list (string * expr)) : bool :=
  match ps with
  | [] => true
  | (_, e') :: ps' => literal e' && literal_props ps'
  end.

(** A declaration of a constant by a literal. *)
Definition static_decl (s : stmt) : bool :=
  match s with
  | SConst _ _ e => literal e
  | _ => false
  end.

Definition static (m : module) : bool := forallb static_decl m.

(** Statements that choose between blocks. *)
Definition branches (s : stmt) : bool :=
  match s with
  | SConst _ _ _ => false
  | SIf _ _ _ => true
  | SThrow _ => false
  | STry _ _ => true
  end.

(** A [throw] anywhere in a statement. *)
Fixpoint throws (s : stmt) : bool :=
  match s with
  | SConst _ _ _ => false
  | SIf _ th el =>
      (fix go (ss : list stmt) : bool :=
         match ss with [] => false | s' :: ss' => throws s' || go ss' end) th
      || (fix go (ss : list stmt) : bool :=
         match ss with [] => false | s' :: ss' => throws s' || go ss' end) el
  | SThrow _ => true
  | STry body handler =>
      (fix go (ss : list stmt) : bool :=
         match ss with [] => false | s' :: ss' => throws s' || go ss' end) body
      || (fix go (ss : list stmt) : bool :=
         match ss with [] => false | s' :: ss' => throws s' || go ss' end) handler
  end.

(** A [try] with its handler anywhere in a statement. *)
Fixpoint handles (s : stmt) : bool :=
  match s with
  | SConst _ _ _ => false
  | SIf _ th el =>
      (fix go (ss : list stmt) : bool :=
         match ss with [] => false | s' :: ss' => handles s' || go ss' end) th
      || (fix go (ss : list stmt) : bool :=
         match ss with [] => false | s' :: ss' => handles s' || go ss' end) el
  | SThrow _ => false
  | STry _ _ => true
  end.

(** *** The module *)

Definition environment_ts : module :=
  [ SConst true "environment"
      (EObject
         [ ("production", EBool false);
           ("apiServerUrl", EStr "http://127.0.0.1:5000");
           ("auth0",
             EObject
               [ ("url", EStr "udacity2020.eu");
                 ("audience", EStr "coffee_shop_api");
                 ("clientId", EStr "XzfZoHMGLBsS6YoHQq9MJYu56QwhA49o");
                 ("callbackURL", EStr "http://127.0.0.1:8100/callback") ]) ]) ].

(** The names a module declares with [export] at its top level. *)
Definition export_names (m : module) : list string :=
  flat_map (fun s => match s with
                     | SConst true x _ => [x]
                     | _ => []
                     end) m.

(** *** From the typed view to the untyped one *)

Definition of_auth0 (a : Config.Auth0) : value :=
  VObj [ ("url", VStr (Config.url a));
         ("audience", VStr (Config.audience a));
         ("clientId", VStr (Config.clientId a));
         ("callbackURL", VStr (Config.callbackURL a)) ].

Definition of_environment (e : Config.Environment) : value :=
  VObj [ ("production", VBool (Config.production e));
         ("apiServerUrl", VStr (Config.apiServerUrl e));
         ("auth0", of_auth0 (Config.auth0 e)) ].

(** The exported value. *)
Definition environment : value := of_environment Config.environment.

End Js.

(** ** Strings as network locations *)

Module Url.

(** The text after the first occurrence of [sep], if there is one. *)
Fixpoint after (sep s : string) : option string :=
  if String.prefix sep s
  then Some (String.substring (String.length sep)
               (String.length s - String.length sep) s)
  else match s with
       | EmptyString => None
       | String _ s' => after sep s'
       end.

Definition contains (sub s : string) : bool :=
  match after sub s with
  | Some _ => true
  | None => false
  end.

(** The longest prefix with no character satisfying [stop]. *)
Fixpoint upto (stop : ascii -> bool) (s : string) : string :=
  match s with
  | EmptyString => EmptyString
  | String c s' => if stop c then EmptyString else String c (upto stop s')
  end.

Definition ends_host (c : ascii) : bool :=
  (Ascii.eqb c ":" || Ascii.eqb c "/" || Ascii.eqb c "?"
   || Ascii.eqb c "#")%char.

(** An absolute URL names its scheme. *)
Definition absolute (s : string) : bool := contains "://" s.

(** The host named by a string: what follows the scheme, when there is
    one, up to the port, path, query or fragment.  A bare domain is its
    own host. *)
Definition host (s : string) : string :=
  upto ends_host
    match after "://" s with
    | Some rest => rest
    | None => s
    end.

Definition loopback (h : string) : bool :=
  String.eqb h "127.0.0.1" || String.eqb h "localhost".

Definition lower (c : ascii) : ascii :=
  let n := nat_of_ascii c in
  if ((65 <=? n) && (n <=? 90))%nat then ascii_of_nat (n + 32) else c.

Fixpoint lowercase (s : string) : string :=
  match s with
  | EmptyString => EmptyString
  | String c s' => String (lower c) (lowercase s')
  end.

(** A key that declares its field a URL, in any letter case. *)
Definition url_key (k : string) : bool := contains "url" (lowercase k).

End Url.

(** ** What the specification lists *)

Module Spec.

(** The specification's inventory of the object, as paths of keys: an
    API base URL, an authentication domain, an audience identifier, a
    client identifier and a callback URL. *)
Definition inventory : list (list string) :=
  [ ["apiServerUrl"];
    ["auth0"; "url"];
    ["auth0"; "audience"];
    ["auth0"; "clientId"];
    ["auth0"; "callbackURL"] ].

(** Nothing but the inventory is configured. *)
Definition nothing_else (v : Js.value) : Prop :=
  forall p, In p (Js.leaf_paths v) -> In p inventory.

(** One flat object of six scalar fields. *)
Definition flat_six (v : Js.value) : Prop :=
  Js.flat v = true /\ List.length (Js.props_of v) = 6.

(** The last key of a path names the field. *)
Definition field_name (p : list string) : string := last p "".

(** Every field declared a URL by its key names a loopback host. *)
Definition only_local (v : Js.value) : Prop :=
  forall p s,
    In (p, Js.VStr s) (Js.leaves v) ->
    Url.url_key (field_name p) = true ->
    Url.loopback (Url.host s) = true.

(** The string leaves of a value, in order. *)
Definition string_leaves (v : Js.value) : list string :=
  flat_map (fun pl => match snd pl with
                      | Js.VStr s => [s]
                      | _ => []
                      end) (Js.leaves v).

(** Words by which a key would announce failure handling. *)
Definition failure_words : list string :=
  [ "retry"; "retries"; "recover"; "fallback"; "timeout"; "backoff";
    "fail"; "error"; "attempt" ].

Definition failure_key (k : string) : bool :=
  existsb (fun w => Url.contains w (Url.lowercase k)) failure_words.

End Spec.

(** ** The parts of a URL, and the object read by its keys *)

Module Endpoint.

(** The text before the first occurrence of [sep]; the whole string when
    there is none. *)
Fixpoint before (sep s : string) : string :=
  if String.prefix sep s then EmptyString
  else match s with
       | EmptyString => EmptyString
       | String c s' => String c (before sep s')
       end.

(** The text from the first character satisfying [stop] on. *)
Fixpoint from (stop : ascii -> bool) (s : string) : string :=
  match s with
  | EmptyString => EmptyString
  | String c s' => if stop c then s else from stop s'
  end.

Definition ends_authority (c : ascii) : bool :=
  (Ascii.eqb c "/" || Ascii.eqb c "?" || Ascii.eqb c "#")%char.

Definition ends_path (c : ascii) : bool :=
  (Ascii.eqb c "?" || Ascii.eqb c "#")%char.

(** What follows the scheme, or the whole string when no scheme is
    named. *)
Definition hier (s : string) : string :=
  match Url.after "://" s with
  | Some rest => rest
  | None => s
  end.

Definition scheme (s : string) : string :=
  if Url.absolute s then before "://" s else EmptyString.

Definition authority (s : string) : string :=
  Url.upto ends_authority (hier s).

(** The port written after the host; empty when none is written. *)
Definition port (s : string) : string :=
  match Url.after ":" (authority s) with
  | Some p => p
  | None => EmptyString
  end.

(** The path runs from the end of the authority to the query or the
    fragment. *)
Definition path (s : string) : string :=
  Url.upto ends_path (from ends_authority (hier s)).

(** Scheme, host and port: what two URLs must share to be of one
    origin. *)
Definition origin (s : string) : string * string * string :=
  (scheme s, Url.host s, port s).

Definition same_origin (a b : string) : bool :=
  let '(sa, ha, pa) := origin a in
  let '(sb, hb, pb) := origin b in
  String.eqb sa sb && String.eqb ha hb && String.eqb pa pb.

(** Character classes. *)
Definition digit (c : ascii) : bool :=
  let n := nat_of_ascii c in ((48 <=? n) && (n <=? 57))%nat.

Definition upper (c : ascii) : bool :=
  let n := nat_of_ascii c in ((65 <=? n) && (n <=? 90))%nat.

Definition lower (c : ascii) : bool :=
  let n := nat_of_ascii c in ((97 <=? n) && (n <=? 122))%nat.

Definition alnum (c : ascii) : bool := digit c || upper c || lower c.

(** Printable ASCII other than the space. *)
Definition visible (c : ascii) : bool :=
  let n := nat_of_ascii c in ((33 <=? n) && (n <=? 126))%nat.

Fixpoint all_chars (ok : ascii -> bool) (s : string) : bool :=
  match s with
  | EmptyString => true
  | String c s' => ok c && all_chars ok s'
  end.



End Endpoint.

(** Unfolds the parts of a URL down to the string functions. *)
Ltac unfold_url :=
  unfold Endpoint.same_origin, Endpoint.origin, Endpoint.scheme,
    Endpoint.port, Endpoint.authority, Endpoint.path, Endpoint.hier,
    Url.host, Url.absolute, Url.contains.

(** ** Properties of the language fragment *)

Module JsFacts.
Import Js.

(** Induction on expressions that reaches into object literals. *)
Lemma expr_nested_ind (P : expr -> Prop)
  (HBool : forall b, P (EBool b))
  (HStr : forall s, P (EStr s))
  (HObject : forall ps, Forall (fun kv => P (snd kv)) ps -> P (EObject ps))
  (HIdent : forall x, P (EIdent x))
  (HNot : forall e, P e -> P (ENot e))
  (HCond : forall c t f, P c -> P t -> P f -> P (ECond c t f)) :
  forall e, P e.
Proof.
  fix IH 1.
  intros [b | s | ps | x | e | c t f].
  - apply HBool.
  - apply HStr.
  - apply HObject.
    induction ps as [| [k e] ps IHps]; constructor; [apply IH | exact IHps].
  - apply HIdent.
  - apply HNot, IH.
  - apply HCond; apply IH.
Qed.

Lemma eval_object (sc : scope) (ps : list (string * expr)) :
  eval sc (EObject ps) = eval_props sc ps [].
Proof.
  unfold eval_props. simpl.
  generalize (@nil (string * value)).
  induction ps as [| [k e] ps IHps]; intro acc; [reflexivity |].
  simpl. destruct (eval sc e); simpl; [apply IHps | reflexivity].
Qed.

Lemma literal_object (ps : list (string * expr)) :
  literal (EObject ps) = literal_props ps.
Proof.
  simpl. induction ps as [| [k e] ps IHps]; [reflexivity |].
  simpl. now rewrite IHps.
Qed.

(** A literal has one value, the same in every scope, and evaluating
    it raises nothing. *)
Lemma literal_value (e : expr) :
  literal e = true -> exists v, forall sc, eval sc e = Ok v.
Proof.
  induction e as [b | s | ps IHps | x | e _ | c t f _ _ _]
    using expr_nested_ind; intro Hlit; try discriminate Hlit.
  - exists (VBool b). reflexivity.
  - exists (VStr s). reflexivity.
  - rewrite literal_object in Hlit.
    assert (Hacc : forall acc,
               exists v, forall sc, eval_props sc ps acc = Ok v).
    { induction IHps as [| [k e] ps Hhd _ IHtl]; intro acc.
      - exists (VObj acc). reflexivity.
      - simpl in Hlit. apply andb_true_iff in Hlit as [Hk Hrest].
        destruct (Hhd Hk) as [v Hv].
        destruct (IHtl Hrest (set k v acc)) as [o Ho].
        exists o. intro sc. simpl. rewrite Hv. simpl. apply Ho. }
    destruct (Hacc []) as [o Ho].
    exists o. intro sc. rewrite eval_object. apply Ho.
Qed.

(** A static module exports the same bindings in every context, and
    running it raises nothing. *)
Lemma static_exports (m : module) :
  static m = true -> exists exs, forall ctx, run ctx m = Ok exs.
Proof.
  unfold run.
  induction m as [| s m IHm]; intro Hst.
  - exists []. reflexivity.
  - simpl in Hst. apply andb_true_iff in Hst as [Hs Hm].
    destruct (IHm Hm) as [exs Hexs].
    destruct s as [exported x e | | |]; try discriminate Hs.
    simpl in Hs. destruct (literal_value e Hs) as [v Hv].
    exists ((if exported then [(x, v)] else []) ++ exs).
    intro ctx. simpl. rewrite Hv. simpl. rewrite Hexs. reflexivity.
Qed.

(** A static module has no branch, no [throw] and no handler. *)
Lemma static_straight (m : module) :
  static m = true ->
  existsb branches m = false /\ existsb throws m = false
  /\ existsb handles m = false.
Proof.
  induction m as [| s m IHm]; intro Hst; [now repeat split |].
  simpl in Hst. apply andb_true_iff in Hst as [Hs Hm].
  destruct (IHm Hm) as (Hb & Ht & Hh).
  destruct s; try discriminate Hs.
  simpl. now rewrite Hb, Ht, Hh.
Qed.

(** The blocks inside a statement run as [exec_block] does. *)
Lemma exec_if (sc : scope) (c : expr) (th el : list stmt) :
  exec sc (SIf c th el)
  = (v <- eval sc c ;;
     _ <- exec_block sc (if truthy v then th else el) ;;
     Ok (sc, [])).
Proof.
  simpl. destruct (eval sc c) as [v |]; [| reflexivity].
  simpl. destruct (truthy v); reflexivity.
Qed.

Lemma exec_try (sc : scope) (body handler : list stmt) :
  exec sc (STry body handler)
  = match exec_block sc body with
    | Ok _ => Ok (sc, [])
    | Err _ => _ <- exec_block sc handler ;; Ok (sc, [])
    end.
Proof. reflexivity. Qed.

(** Outside the static class the context matters and a run can fail: a
    declaration that reads an identifier raises where the name is
    unbound and takes the bound value elsewhere. *)
Example ident_reads_context :
  run [] [SConst true "environment" (EObject [("apiServerUrl", EIdent "api")])]
  = Err (ReferenceError "api")
  /\ run [("api", VStr "http://10.0.0.1")]
       [SConst true "environment" (EObject [("apiServerUrl", EIdent "api")])]
     = Ok [("environment", VObj [("apiServerUrl", VStr "http://10.0.0.1")])].
Proof. split; reflexivity. Qed.

(** A [throw] stops the run, and a handler around it recovers. *)
Example throw_and_recover :
  run [] [SThrow (EStr "down"); SConst true "environment" (EBool false)]
  = Err (Thrown (VStr "down"))
  /\ run [] [STry [SThrow (EStr "down")] [];
             SConst true "environment" (EBool false)]
     = Ok [("environment", VBool false)].
Proof. split; reflexivity. Qed.

(** A key written twice keeps its first position and its last value. *)
Example object_key_twice :
  eval [] (EObject [("a", EBool true); ("b", EStr "x"); ("a", EBool false)])
  = Ok (VObj [("a", VBool false); ("b", VStr "x")]).
Proof. reflexivity. Qed.

(** The two views of the constant agree: in any context the module
    exports one binding, [environment], whose value is the image of the
    typed constant. *)
Lemma environment_ts_exports (ctx : scope) :
  run ctx environment_ts = Ok [("environment", environment)].
Proof. reflexivity. Qed.

Lemma environment_ts_static : static environment_ts = true.
Proof. reflexivity. Qed.

End JsFacts.

(** ** The exported constant *)

(** C1, as stated, fails: the object also configures [production], which
    is not in the specification's inventory. *)
Lemma production_outside_inventory : ~ Spec.nothing_else Js.environment.
Proof.
  intro H.
  assert (Hin : In ["production"] Spec.inventory).
  { apply H. left. reflexivity. }
  simpl in Hin.
  repeat (destruct Hin as [Hin | Hin]; [discriminate Hin |]).
  exact Hin.
Qed.

(** C1, amended: the module exports exactly one binding, [environment];
    its value is an object whose leaves are the five entries of the
    specification's inventory (API base URL, authentication domain,
    audience, client identifier, callback URL) preceded by one more, the
    boolean [production] flag, and nothing else. *)
Theorem environment_inventory_and_production :
  Js.export_names Js.environment_ts = ["environment"]
  /\ (forall ctx,
        Js.run ctx Js.environment_ts = Js.Ok [("environment", Js.environment)])
  /\ Js.composite Js.environment = true
  /\ Js.leaf_paths Js.environment = ["production"] :: Spec.inventory
  /\ Js.leaves Js.environment
     = (["production"], Js.VBool (Config.production Config.environment))
       :: combine Spec.inventory
            (map Js.VStr (Config.string_fields Config.environment)).
Proof.
  split; [reflexivity |].
  split; [exact JsFacts.environment_ts_exports |].
  repeat split.
Qed.

(** C2, as stated, fails: the object is not flat, its [auth0] field holds
    an object, and it has three fields of its own, not six. *)
Lemma environment_not_flat_six : ~ Spec.flat_six Js.environment.
Proof.
  intros [Hflat _]. discriminate Hflat.
Qed.

(** C2, amended: the exported value is one object with exactly six scalar
    leaves, each a boolean or a string, on two levels: [production] and
    [apiServerUrl] are fields of the object itself, and the other four
    are the fields of the one nested object, [auth0], which is flat. *)
Theorem environment_two_levels :
  Js.keys_of Js.environment = ["production"; "apiServerUrl"; "auth0"]
  /\ map (fun kv => Js.scalar (snd kv)) (Js.props_of Js.environment)
     = [true; true; false]
  /\ Js.get "auth0" (Js.props_of Js.environment)
     = Some (Js.of_auth0 (Config.auth0 Config.environment))
  /\ Js.flat (Js.of_auth0 (Config.auth0 Config.environment)) = true
  /\ Js.keys_of (Js.of_auth0 (Config.auth0 Config.environment))
     = ["url"; "audience"; "clientId"; "callbackURL"]
  /\ Js.flat Js.environment = false
  /\ Js.depth Js.environment = 2
  /\ List.length (Js.leaves Js.environment) = 6
  /\ forallb (fun pl => Js.scalar (snd pl)) (Js.leaves Js.environment) = true.
Proof.
  repeat split.
Qed.

(** C3: the module is static, a constant declared by a literal with no
    branch, no operator and no reference to its context, so its
    evaluation in any two contexts gives the same exports, the one
    [environment] object. *)
Theorem environment_ts_constant :
  Js.static Js.environment_ts = true
  /\ existsb Js.branches Js.environment_ts = false
  /\ (forall ctx1 ctx2,
        Js.run ctx1 Js.environment_ts = Js.run ctx2 Js.environment_ts)
  /\ (forall ctx,
        Js.run ctx Js.environment_ts = Js.Ok [("environment", Js.environment)]).
Proof.
  pose proof JsFacts.environment_ts_static as Hst.
  split; [exact Hst |].
  split; [apply (JsFacts.static_straight _ Hst) |].
  split.
  - destruct (JsFacts.static_exports _ Hst) as [exs Hexs].
    intros ctx1 ctx2. now rewrite (Hexs ctx1), (Hexs ctx2).
  - exact JsFacts.environment_ts_exports.
Qed.

(** C4: evaluating the declaration cannot fail: in every context the run
    ends with its exports, never with an error, and the module contains
    no [throw]. *)
Theorem environment_ts_never_fails :
  (forall ctx, exists exs, Js.run ctx Js.environment_ts = Js.Ok exs)
  /\ (forall ctx, Js.succeeded (Js.run ctx Js.environment_ts) = true)
  /\ existsb Js.throws Js.environment_ts = false.
Proof.
  pose proof JsFacts.environment_ts_static as Hst.
  destruct (JsFacts.static_exports _ Hst) as [exs Hexs].
  split; [| split].
  - intro ctx. exists exs. apply Hexs.
  - intro ctx. now rewrite Hexs.
  - apply (JsFacts.static_straight _ Hst).
Qed.

(** C5: the module handles no failure: it has no [try] with a handler and
    no [throw], every leaf of the exported object is plain data, and none
    of its keys names a retry, a recovery or any other failure
    behaviour. *)
Theorem environment_no_failure_handling :
  existsb Js.handles Js.environment_ts = false
  /\ existsb Js.throws Js.environment_ts = false
  /\ forallb (fun pl => Js.scalar (snd pl)) (Js.leaves Js.environment) = true
  /\ Js.all_keys Js.environment
     = ["production"; "apiServerUrl"; "auth0";
        "url"; "audience"; "clientId"; "callbackURL"]
  /\ existsb Spec.failure_key (Js.all_keys Js.environment) = false.
Proof.
  repeat split.
Qed.

(** C6: the exported configuration sets the production flag to false. *)
Theorem environment_production_false :
  Config.production Config.environment = false
  /\ Js.get "production" (Js.props_of Js.environment) = Some (Js.VBool false).
Proof.
  split; reflexivity.
Qed.

(** C7, as stated, fails: the field [auth0.url] is declared a URL by its
    key and holds the domain [udacity2020.eu], which is not a loopback
    host, so not every service the configuration targets is local. *)
Lemma auth0_url_not_local : ~ Spec.only_local Js.environment.
Proof.
  intro H.
  specialize (H ["auth0"; "url"] "udacity2020.eu").
  assert (Hloop : Url.loopback (Url.host "udacity2020.eu") = true).
  { apply H; [| reflexivity].
    right. right. left. reflexivity. }
  discriminate Hloop.
Qed.

(** C7, amended: the two fields whose value is an absolute URL,
    [apiServerUrl] and [auth0.callbackURL], equal
    ['http://127.0.0.1:5000'] and ['http://127.0.0.1:8100/callback'] and
    both name the loopback host [127.0.0.1]; the third field declared a
    URL by its key, [auth0.url], holds the bare domain [udacity2020.eu],
    which is not a loopback host. *)
Theorem environment_urls_loopback :
  Config.apiServerUrl Config.environment = "http://127.0.0.1:5000"
  /\ Config.callbackURL (Config.auth0 Config.environment)
     = "http://127.0.0.1:8100/callback"
  /\ filter Url.absolute (Spec.string_leaves Js.environment)
     = [ Config.apiServerUrl Config.environment;
         Config.callbackURL (Config.auth0 Config.environment) ]
  /\ map Url.host (filter Url.absolute (Spec.string_leaves Js.environment))
     = ["127.0.0.1"; "127.0.0.1"]
  /\ forallb (fun s => Url.loopback (Url.host s))
       (filter Url.absolute (Spec.string_leaves Js.environment)) = true
  /\ filter Url.url_key (Js.all_keys Js.environment)
     = ["apiServerUrl"; "url"; "callbackURL"]
  /\ Url.absolute (Config.url (Config.auth0 Config.environment)) = false
  /\ Url.host (Config.url (Config.auth0 Config.environment)) = "udacity2020.eu"
  /\ Url.loopback (Url.host (Config.url (Config.auth0 Config.environment)))
     = false.
Proof.
  repeat split.
Qed.

(** C8: every string-valued field of the exported object, [apiServerUrl],
    [auth0.url], [auth0.audience], [auth0.clientId] and
    [auth0.callbackURL], is a non-empty string. *)
Theorem environment_strings_nonempty :
  Spec.string_leaves Js.environment
  = Config.string_fields Config.environment
  /\ List.length (Config.string_fields Config.environment) = 5
  /\ Forall (fun s => s <> "") (Config.string_fields Config.environment)
  /\ forallb (fun s => negb (String.eqb s ""))
       (Config.string_fields Config.environment) = true
  /\ map String.length (Config.string_fields Config.environment)
     = [21; 14; 15; 32; 30].
Proof.
  split; [reflexivity |].
  split; [reflexivity |].
  split; [| split; reflexivity].
  repeat constructor; discriminate.
Qed.


(** ** The configured endpoints as their users meet them *)

Module EndpointFacts.


(** A string with a one-character prefix starts with that character. *)
Lemma prefix_head (c : ascii) (p : string) :
  String.prefix (String c EmptyString) p = true ->
  exists p', p = String c p'.
Proof.
  intro H. apply prefix_correct in H.
  destruct p as [| d p']; [discriminate H |].
  simpl in H. injection H as Hd _.
  exists p'. now rewrite Hd.
Qed.

(** The precondition of [api_request_keeps_origin] is needed: the base
    URL ends in its port, so a suffix that does not open a path runs
    into it. *)
Example api_suffix_without_slash :
  Endpoint.port (Config.apiServerUrl Config.environment ++ "1")%string
  = "50001"
  /\ Endpoint.same_origin
       (Config.apiServerUrl Config.environment ++ "1")%string
       (Config.apiServerUrl Config.environment) = false.
Proof. split; reflexivity. Qed.

End EndpointFacts.



(** X2: whatever query or fragment is appended to [auth0.callbackURL], as
    the authentication service does when it sends the user back with a
    token, the result is still the application's callback: origin
    [http://127.0.0.1:8100], a loopback host, and path [/callback]. *)
Theorem callback_redirect_stays_on_callback (q : string) :
  String.prefix "#" q = true \/ String.prefix "?" q = true ->
  Endpoint.origin
    (Config.callbackURL (Config.auth0 Config.environment) ++ q)%string
  = ("http", "127.0.0.1", "8100")
  /\ Url.loopback
       (Url.host
          (Config.callbackURL (Config.auth0 Config.environment) ++ q)%string)
     = true
  /\ Endpoint.path
       (Config.callbackURL (Config.auth0 Config.environment) ++ q)%string
     = "/callback".
Proof.
  intros [H | H];
    destruct (EndpointFacts.prefix_head _ q H) as [q' ->]; clear H;
    unfold_url; cbn; repeat split.
Qed.

Lemma callback_redirect_stays_on_callback_witness :
  (String.prefix "#" "#access_token=eyJ0&expires_in=7200" = true
   \/ String.prefix "?" "#access_token=eyJ0&expires_in=7200" = true)
  /\ Endpoint.origin
       "http://127.0.0.1:8100/callback#access_token=eyJ0&expires_in=7200"
     = ("http", "127.0.0.1", "8100")
  /\ Url.loopback
       (Url.host
          "http://127.0.0.1:8100/callback#access_token=eyJ0&expires_in=7200")
     = true
  /\ Endpoint.path
       "http://127.0.0.1:8100/callback#access_token=eyJ0&expires_in=7200"
     = "/callback".
Proof.
  split; [left; reflexivity |].
  apply (callback_redirect_stays_on_callback
           "#access_token=eyJ0&expires_in=7200").
  left. reflexivity.
Defined.


(** X4: no string field of the configuration holds a blank, a control
    character or a character outside ASCII, and [auth0.clientId] is 32
    characters, every one a letter or a digit. *)
Theorem environment_strings_well_formed :
  forallb (Endpoint.all_chars Endpoint.visible)
    (Config.string_fields Config.environment) = true
  /\ String.length (Config.clientId (Config.auth0 Config.environment)) = 32
  /\ Endpoint.all_chars Endpoint.alnum
       (Config.clientId (Config.auth0 Config.environment)) = true.
Proof.
  repeat split.
Qed.

